(** * The signal pipeline of the quality-control dashboard

    A shallow embedding of the React components that hold state in the
    repository:

    - [MaintenanceStats], the maintenance panel with the risk-score chart
      and the alert threshold, and [MaintenanceStatsBasic], the panel
      without them;
    - [DefectDisplay], the defect-detection widget with the file guard,
      the loading flag and the try/catch/finally, and
      [DefectDisplayBasic] (src/frontend/src/components/DefectDisplay.js),
      the widget without any of the three.

    A component is a record of its [useState] cells; an event handler is a
    function from state to state that also returns the effects it performs
    ([alert], [fetch], [console.error]); an [await] splits a handler into the
    part that runs at the click and the part that runs when the awaited
    promise settles, and the requests in flight are kept next to the
    component state. *)

From Stdlib Require Import ZArith List Bool String Ascii Lia.
From Stdlib Require Import DecimalString DecimalPos DecimalN.
Import ListNotations.
Set Warnings "-register-all".
Local Open Scope string_scope.
Local Open Scope Z_scope.

(* ================================================================== *)
(** * JavaScript values used by the components *)
(* ================================================================== *)

Module Js.

(** Numbers. Risk scores and thresholds are integers; an integer of
    magnitude below 2^53 is represented exactly by an IEEE double, and on
    those the comparison [>] of JavaScript is the comparison of integers.
    A number of the embedding is such an integer or NaN. *)
Inductive number : Type :=
| Num (z : Z)
| NaN.

(** [a > b]: false as soon as one side is NaN. *)
Definition gt (a b : number) : bool :=
  match a, b with
  | Num x, Num y => y <? x
  | _, _ => false
  end.

(** Values that [response.json()] can deliver, and [undefined], which a
    property read can. An object is its list of members in source order. *)
Inductive value : Type :=
| Undefined
| Null
| Boolean (b : bool)
| Numeric (n : number)
| Str (s : string)
| Array (items : list value)
| Object (members : list (string * value)).

(** ToBoolean. *)
Definition truthy (v : value) : bool :=
  match v with
  | Undefined | Null => false
  | Boolean b => b
  | Numeric (Num z) => negb (z =? 0)
  | Numeric NaN => false
  | Str s => negb (String.eqb s "")
  | Array _ | Object _ => true
  end.

(** The member of an object literal named [k]; with a repeated key the
    last one is the one JSON.parse keeps. *)
Fixpoint member (k : string) (ms : list (string * value)) : option value :=
  match ms with
  | [] => None
  | (k', v) :: rest =>
      match member k rest with
      | Some w => Some w
      | None => if String.eqb k k' then Some v else None
      end
  end.

(** [v.k] for a name [k] that no prototype defines: a TypeError ([None])
    on null and undefined, the member or [undefined] on an object, and
    [undefined] on every other value. *)
Definition get (v : value) (k : string) : option value :=
  match v with
  | Undefined | Null => None
  | Object ms =>
      match member k ms with
      | Some w => Some w
      | None => Some Undefined
      end
  | _ => Some Undefined
  end.

(** ** [Number(string)] *)

(** The ASCII members of StrWhiteSpaceChar: TAB, LF, VT, FF, CR, SP. *)
Definition is_space (c : ascii) : bool :=
  let n := nat_of_ascii c in
  ((9 <=? n) && (n <=? 13) || (n =? 32))%nat.

Fixpoint trim_start (s : string) : string :=
  match s with
  | EmptyString => EmptyString
  | String c rest => if is_space c then trim_start rest else s
  end.

(** [trim_end s] drops the white space that ends [s]. *)
Fixpoint trim_end (s : string) : string :=
  match s with
  | EmptyString => EmptyString
  | String c rest =>
      match trim_end rest with
      | EmptyString => if is_space c then EmptyString else String c EmptyString
      | kept => String c kept
      end
  end.

Definition trim (s : string) : string := trim_end (trim_start s).

(** A non-empty run of decimal digits, read in base ten. *)
Definition digits (s : string) : number :=
  match s with
  | EmptyString => NaN
  | _ =>
      match NilEmpty.uint_of_string s with
      | Some d => Num (Z.of_uint d)
      | None => NaN
      end
  end.

Definition neg (n : number) : number :=
  match n with
  | Num z => Num (- z)
  | NaN => NaN
  end.

(** StringToNumber on the strings the embedding covers: surrounding white
    space is dropped; the empty string is 0; an optional sign followed by
    decimal digits is that integer. Literals with a fraction, an exponent,
    a radix prefix or [Infinity], and numerals of magnitude 2^53 or more,
    denote numbers that [number] does not hold; they are outside the
    embedding, and the properties of the panel below apply [Number] to
    the empty string and to numerals of small integers only. (The
    literals not covered fall in the last case, together with the strings
    that are NaN in JavaScript too.) *)
Definition Number (s : string) : number :=
  match trim s with
  | EmptyString => Num 0
  | String "+" rest => digits rest
  | String "-" rest => neg (digits rest)
  | t => digits t
  end.

(** The decimal numeral of a natural number, as [String(n)] prints it. *)
Definition numeral (n : N) : string :=
  NilEmpty.string_of_uint (N.to_uint n).

(** Strings made of the characters 0 to 9 only. *)
Definition is_digit (c : ascii) : bool :=
  let n := nat_of_ascii c in ((48 <=? n) && (n <=? 57))%nat.

Fixpoint only_digits (s : string) : bool :=
  match s with
  | EmptyString => true
  | String c rest => is_digit c && only_digits rest
  end.

End Js.


(* ================================================================== *)
(** * MaintenanceStats: the maintenance panel with the alert threshold *)
(* ================================================================== *)

Module MaintenanceStats.

(** One point of the risk-score chart: [{ date, riskScore }]. *)
Record Sample : Type := {
  date : string;
  sampleRiskScore : Js.number
}.

(** The object the prediction call answers with. *)
Record Response : Type := {
  nextMaintenanceDate : string;
  riskScore : Js.number;
  downtime : string;
  lastMaintenanceDate : string;
  history : list Sample
}.

(** The four [useState] cells. [None] is [null]. *)
Record State : Type := {
  maintenanceData : option Response;
  loading : bool;
  error : option string;
  alertThreshold : Js.number
}.

(** [useState(null)], [useState(true)], [useState(null)], [useState(70)]. *)
Definition initial : State :=
  {| maintenanceData := None;
     loading := true;
     error := None;
     alertThreshold := Js.Num 70 |}.

Definition setMaintenanceData (d : option Response) (st : State) : State :=
  {| maintenanceData := d;
     loading := loading st;
     error := error st;
     alertThreshold := alertThreshold st |}.

Definition setLoading (b : bool) (st : State) : State :=
  {| maintenanceData := maintenanceData st;
     loading := b;
     error := error st;
     alertThreshold := alertThreshold st |}.

Definition setError (e : option string) (st : State) : State :=
  {| maintenanceData := maintenanceData st;
     loading := loading st;
     error := e;
     alertThreshold := alertThreshold st |}.

Definition setAlertThreshold (t : Js.number) (st : State) : State :=
  {| maintenanceData := maintenanceData st;
     loading := loading st;
     error := error st;
     alertThreshold := t |}.

(** The simulated API response of the panel. *)
Definition response : Response :=
  {| nextMaintenanceDate := "2025-03-15";
     riskScore := Js.Num 80;
     downtime := "15 hours";
     lastMaintenanceDate := "2024-12-01";
     history :=
       [ {| date := "2024-01-01"; sampleRiskScore := Js.Num 30 |};
         {| date := "2024-04-01"; sampleRiskScore := Js.Num 45 |};
         {| date := "2024-07-01"; sampleRiskScore := Js.Num 60 |};
         {| date := "2024-10-01"; sampleRiskScore := Js.Num 75 |};
         {| date := "2025-01-01"; sampleRiskScore := Js.Num 80 |} ] |}.

(** What the call in the [try] block does: it delivers a response or it
    throws. *)
Inductive ApiCall : Type :=
| Returned (r : Response)
| Thrown.

(** The body of [fetchMaintenanceData] for an arbitrary outcome of the call
    that the literal stands for: the [try] branch stores the response as it
    is and clears [loading]; the [catch] branch records the fixed error
    text and clears [loading]. *)
Definition fetchMaintenanceDataWith (call : ApiCall) (st : State) : State :=
  match call with
  | Returned r => setLoading false (setMaintenanceData (Some r) st)
  | Thrown => setLoading false (setError (Some "Failed to fetch maintenance data") st)
  end.

(** [fetchMaintenanceData] as the source has it: the call is the literal.
    The function has no [await]; it runs to its end inside the effect. *)
Definition fetchMaintenanceData (st : State) : State :=
  fetchMaintenanceDataWith (Returned response) st.

(** [onChange] of the threshold input:
    [(e) => setAlertThreshold(Number(e.target.value))]. *)
Definition onChange (value : string) (st : State) : State :=
  setAlertThreshold (Js.Number value) st.

(** What the panel renders once the data is there. *)
Record Stats : Type := {
  shownEquipmentId : string;
  shownNextMaintenanceDate : string;
  shownRiskScore : Js.number;
  shownDowntime : string;
  shownLastMaintenanceDate : string;
  chart : list Sample;
  thresholdInput : Js.number;
  (** the paragraph [alert-message] is part of the output *)
  alertMessage : bool
}.

Inductive View : Type :=
| LoadingView                 (* Loading maintenance data... *)
| ErrorView (msg : string)    (* Error: {error} *)
| StatsView (s : Stats)
| RenderThrows.               (* a property of null is read *)

(** The function component after its hooks: the two early returns, then
    the statistics with the conditional alert paragraph
    [maintenanceData.riskScore > alertThreshold && ...]. *)
Definition statistics (equipmentId : string) (d : Response) (st : State) : Stats :=
  {| shownEquipmentId := equipmentId;
     shownNextMaintenanceDate := nextMaintenanceDate d;
     shownRiskScore := riskScore d;
     shownDowntime := downtime d;
     shownLastMaintenanceDate := lastMaintenanceDate d;
     chart := history d;
     thresholdInput := alertThreshold st;
     alertMessage := Js.gt (riskScore d) (alertThreshold st) |}.

Definition render (equipmentId : string) (st : State) : View :=
  if loading st then LoadingView
  else
    match error st with
    | Some msg =>
        if negb (String.eqb msg "") then ErrorView msg
        else
          match maintenanceData st with
          | None => RenderThrows
          | Some d => StatsView (statistics equipmentId d st)
          end
    | None =>
        match maintenanceData st with
        | None => RenderThrows
        | Some d => StatsView (statistics equipmentId d st)
        end
    end.

(** The alert paragraph is on the screen. *)
Definition alertShown (v : View) : bool :=
  match v with
  | StatsView s => alertMessage s
  | _ => false
  end.

(** The risk score on the screen, if one is. *)
Definition currentRisk (equipmentId : string) (st : State) : option Js.number :=
  match render equipmentId st with
  | StatsView s => Some (shownRiskScore s)
  | _ => None
  end.


(** What can happen to a mounted panel: the effect runs (at mount and each
    time the [equipmentId] prop changes), or the threshold input changes. *)
Inductive Event : Type :=
| EffectRuns
| ThresholdInput (value : string).

Definition step (st : State) (e : Event) : State :=
  match e with
  | EffectRuns => fetchMaintenanceData st
  | ThresholdInput value => onChange value st
  end.

Definition run (es : list Event) (st : State) : State := fold_left step es st.

End MaintenanceStats.

(* ================================================================== *)
(** * MaintenanceStatsBasic: the panel without chart and threshold *)
(* ================================================================== *)

Module MaintenanceStatsBasic.

Record Response : Type := {
  nextMaintenanceDate : string;
  riskScore : Js.number;
  downtime : string;
  lastMaintenanceDate : string
}.

Record State : Type := {
  maintenanceData : option Response;
  loading : bool;
  error : option string
}.

Definition initial : State :=
  {| maintenanceData := None; loading := true; error := None |}.

Definition response : Response :=
  {| nextMaintenanceDate := "2025-03-15";
     riskScore := Js.Num 80;
     downtime := "15 hours";
     lastMaintenanceDate := "2024-12-01" |}.

Inductive ApiCall : Type :=
| Returned (r : Response)
| Thrown.

Definition fetchMaintenanceDataWith (call : ApiCall) (st : State) : State :=
  match call with
  | Returned r =>
      {| maintenanceData := Some r; loading := false; error := error st |}
  | Thrown =>
      {| maintenanceData := maintenanceData st;
         loading := false;
         error := Some "Failed to fetch maintenance data" |}
  end.

Definition fetchMaintenanceData (st : State) : State :=
  fetchMaintenanceDataWith (Returned response) st.

(** The risk score on the screen: none while [loading], none when the
    error text is shown. *)
Definition currentRisk (st : State) : option Js.number :=
  if loading st then None
  else
    match error st with
    | Some msg =>
        if negb (String.eqb msg "") then None
        else option_map riskScore (maintenanceData st)
    | None => option_map riskScore (maintenanceData st)
    end.

End MaintenanceStatsBasic.

(* ================================================================== *)
(** * The detect endpoint as the two widgets see it *)
(* ================================================================== *)

Module Gateway.

Record File : Type := {
  name : string;
  content : string
}.

(** The [file] cell: [null] at first, then [e.target.files[0]], which is a
    File or, with no file in the list, [undefined]. *)
Inductive FileCell : Type :=
| FileNull
| FileUndefined
| Picked (f : File).

Definition falsy (c : FileCell) : bool :=
  match c with
  | Picked _ => false
  | _ => true
  end.

(** An entry of a FormData: a file, or the string a non-Blob value is
    converted to. *)
Inductive Entry : Type :=
| FileEntry (f : File)
| TextEntry (s : string).

(** [formData.append('file', file)]. *)
Definition append_file (c : FileCell) : list (string * Entry) :=
  match c with
  | Picked f => [("file", FileEntry f)]
  | FileNull => [("file", TextEntry "null")]
  | FileUndefined => [("file", TextEntry "undefined")]
  end.

Record Request : Type := {
  url : string;
  method : string;
  body : list (string * Entry)
}.

(** [fetch('/defects/detect', { method: 'POST', body: formData })]. *)
Definition detect (c : FileCell) : Request :=
  {| url := "/defects/detect"; method := "POST"; body := append_file c |}.

(** What [await response.json()] gives: the parsed value, or a rejection
    when the body is not JSON. *)
Inductive Body : Type :=
| NotJson
| Json (data : Js.value).

(** How a request ends: [fetch] rejects (the network failed), or a
    response arrives with its [ok] flag and its body. The handlers touch
    no state between [await fetch] and [await response.json()], so the
    two are one settlement. *)
Inductive Outcome : Type :=
| Rejected
| Responded (ok : bool) (b : Body).

(** What is thrown inside a handler. *)
Inductive Thrown : Type :=
| FetchFailed                    (* the rejection of fetch *)
| ErrorOf (message : string)     (* new Error(message) *)
| JsonSyntaxError                (* the rejection of response.json() *)
| TypeError.                     (* a property of null is read *)

Inductive Effect : Type :=
| Alert (message : string)
| Fetch (rq : Request)
| ReadAsDataURL (f : File)
| ConsoleError (e : Thrown)
| Uncaught (e : Thrown).         (* an exception or rejection nobody catches *)

(** [data.defect_detected ? 'Defect Detected' : 'No Defect'] *)
Definition verdict (data : Js.value) : Thrown + string :=
  match Js.get data "defect_detected" with
  | None => inl TypeError
  | Some v => inr (if Js.truthy v then "Defect Detected" else "No Defect")
  end.

(** A mounted widget: the component state [S], the requests that were
    issued and have not settled yet (each with the number it was issued
    under), the count of requests issued so far, and every effect
    performed, oldest first. *)
Section Mounted.

Variable S : Type.

Record Widget : Type := {
  ui : S;
  inflight : list (nat * Request);
  issued : nat;
  log : list Effect
}.

Definition mount (s : S) : Widget :=
  {| ui := s; inflight := []; issued := 0%nat; log := [] |}.

(** The requests among the effects of one handler run. *)
Definition fetched (effs : list Effect) : list Request :=
  flat_map (fun e => match e with Fetch rq => [rq] | _ => [] end) effs.

(** A handler ran on [w] and gave the new state and its effects: each
    [fetch] among them becomes a request in flight. *)
Definition perform (w : Widget) (r : S * list Effect) : Widget :=
  let rqs := fetched (snd r) in
  {| ui := fst r;
     inflight := inflight w ++ combine (seq (issued w) (List.length rqs)) rqs;
     issued := (issued w + List.length rqs)%nat;
     log := log w ++ snd r |}.

Definition pending (id : nat) (w : Widget) : bool :=
  existsb (Nat.eqb id) (map fst (inflight w)).

Definition without (id : nat) (w : Widget) : Widget :=
  {| ui := ui w;
     inflight := filter (fun p => negb (Nat.eqb id (fst p))) (inflight w);
     issued := issued w;
     log := log w |}.

(** Request [id] settles and the rest [k] of its handler runs. A request
    that is not in flight cannot settle. *)
Definition resume (id : nat) (k : S -> S * list Effect) (w : Widget) : Widget :=
  if pending id w then perform (without id w) (k (ui w)) else w.

End Mounted.

Arguments ui {S} _.
Arguments inflight {S} _.
Arguments issued {S} _.
Arguments log {S} _.
Arguments mount {S} _.
Arguments perform {S} _ _.
Arguments pending {S} _ _.
Arguments without {S} _ _.
Arguments resume {S} _ _ _.

End Gateway.

(* ================================================================== *)
(** * DefectDisplay: the widget with guard, loading flag and try/catch *)
(* ================================================================== *)

Module DefectDisplay.
Import Gateway.

Record State : Type := {
  file : FileCell;
  result : option string;
  imagePreview : option string;
  isLoading : bool
}.

Definition initial : State :=
  {| file := FileNull; result := None; imagePreview := None; isLoading := false |}.

Definition setFile (c : FileCell) (st : State) : State :=
  {| file := c; result := result st;
     imagePreview := imagePreview st; isLoading := isLoading st |}.

Definition setResult (r : option string) (st : State) : State :=
  {| file := file st; result := r;
     imagePreview := imagePreview st; isLoading := isLoading st |}.

Definition setImagePreview (u : option string) (st : State) : State :=
  {| file := file st; result := result st;
     imagePreview := u; isLoading := isLoading st |}.

Definition setIsLoading (b : bool) (st : State) : State :=
  {| file := file st; result := result st;
     imagePreview := imagePreview st; isLoading := b |}.

(** [handleFileChange]: the file is stored, then a FileReader is started
    on it; with no file in the list [readAsDataURL(undefined)] throws. *)
Definition handleFileChange (selected : option File) (st : State)
  : State * list Effect :=
  match selected with
  | Some f => (setFile (Picked f) st, [ReadAsDataURL f])
  | None => (setFile FileUndefined st, [Uncaught TypeError])
  end.

(** [reader.onloadend]. *)
Definition onloadend (readerResult : option string) (st : State)
  : State * list Effect :=
  (setImagePreview readerResult st, []).

(** [handleSubmit] up to [await fetch(...)]. *)
Definition handleSubmit (st : State) : State * list Effect :=
  if falsy (file st) then (st, [Alert "Please select an image first."])
  else (setIsLoading true st, [Fetch (detect (file st))]).

(** The [try] block from the point where the request has settled: the
    text for [setResult], or what is thrown. *)
Definition attempt (o : Outcome) : Thrown + string :=
  match o with
  | Rejected => inl FetchFailed
  | Responded false _ => inl (ErrorOf "Failed to detect defects.")
  | Responded true NotJson => inl JsonSyntaxError
  | Responded true (Json data) => verdict data
  end.

(** [handleSubmit] from the settlement on: [try] / [catch] / [finally]. *)
Definition handleSubmit_settled (o : Outcome) (st : State) : State * list Effect :=
  match attempt o with
  | inr text => (setIsLoading false (setResult (Some text) st), [])
  | inl e =>
      (setIsLoading false
         (setResult (Some "Error detecting defects. Please try again.") st),
       [ConsoleError e])
  end.

Inductive Event : Type :=
| FileChange (selected : option File)
| ReaderLoadEnd (readerResult : option string)
| ClickUpload
| Settles (id : nat) (o : Outcome).

(** The button is [disabled={isLoading}]: a click on a disabled button
    dispatches nothing. *)
Definition step (w : Widget State) (e : Event) : Widget State :=
  match e with
  | FileChange selected => perform w (handleFileChange selected (ui w))
  | ReaderLoadEnd r => perform w (onloadend r (ui w))
  | ClickUpload =>
      if isLoading (ui w) then w else perform w (handleSubmit (ui w))
  | Settles id o => resume id (handleSubmit_settled o) w
  end.

Definition run (es : list Event) (w : Widget State) : Widget State :=
  fold_left step es w.

Definition mounted : Widget State := mount initial.

(** The loading flag and the requests in flight agree: with the flag up
    one request is in flight, with the flag down none is. *)
Definition consistent (w : Widget State) : Prop :=
  if isLoading (ui w)
  then exists id rq, inflight w = [(id, rq)]
  else inflight w = [].

(** The text [setResult] receives when a request ends with [o]. *)
Definition shown (o : Outcome) : string :=
  match attempt o with
  | inr text => text
  | inl _ => "Error detecting defects. Please try again."
  end.

End DefectDisplay.

(* ================================================================== *)
(** * DefectDisplayBasic: src/frontend/src/components/DefectDisplay.js *)
(* ================================================================== *)

Module DefectDisplayBasic.
Import Gateway.

Record State : Type := {
  file : FileCell;
  result : option string
}.

Definition initial : State := {| file := FileNull; result := None |}.

Definition setFile (c : FileCell) (st : State) : State :=
  {| file := c; result := result st |}.

Definition setResult (r : option string) (st : State) : State :=
  {| file := file st; result := r |}.

(** [handleFileChange]: [setFile(e.target.files[0])]. *)
Definition handleFileChange (selected : option File) (st : State)
  : State * list Effect :=
  match selected with
  | Some f => (setFile (Picked f) st, [])
  | None => (setFile FileUndefined st, [])
  end.

(** [handleSubmit] up to [await fetch(...)]: nothing is checked. *)
Definition handleSubmit (st : State) : State * list Effect :=
  (st, [Fetch (detect (file st))]).

(** [handleSubmit] from the settlement on: no [try], no look at
    [response.ok]; whatever is thrown rejects the promise that the click
    handler returned, which nobody holds. *)
Definition handleSubmit_settled (o : Outcome) (st : State) : State * list Effect :=
  match o with
  | Rejected => (st, [Uncaught FetchFailed])
  | Responded _ NotJson => (st, [Uncaught JsonSyntaxError])
  | Responded _ (Json data) =>
      match verdict data with
      | inr text => (setResult (Some text) st, [])
      | inl e => (st, [Uncaught e])
      end
  end.

Inductive Event : Type :=
| FileChange (selected : option File)
| ClickUpload
| Settles (id : nat) (o : Outcome).

Definition step (w : Widget State) (e : Event) : Widget State :=
  match e with
  | FileChange selected => perform w (handleFileChange selected (ui w))
  | ClickUpload => perform w (handleSubmit (ui w))
  | Settles id o => resume id (handleSubmit_settled o) w
  end.

Definition run (es : list Event) (w : Widget State) : Widget State :=
  fold_left step es w.

Definition mounted : Widget State := mount initial.

End DefectDisplayBasic.

(* ================================================================== *)
(** * Concrete runs used below *)
(* ================================================================== *)

Module Scenario.
Import Gateway.

(** The panel after its first effect run. *)
Definition fetched_panel : MaintenanceStats.State :=
  MaintenanceStats.fetchMaintenanceData MaintenanceStats.initial.

(** A sample dated before the last point of the simulated history. *)
Definition stale_sample : MaintenanceStats.Sample :=
  {| MaintenanceStats.date := "2024-06-01";
     MaintenanceStats.sampleRiskScore := Js.Num 10 |}.

(** A response whose history is the simulated one followed by
    [stale_sample], with that sample's score as its risk score. *)
Definition stale_response : MaintenanceStats.Response :=
  {| MaintenanceStats.nextMaintenanceDate := "2025-03-15";
     MaintenanceStats.riskScore := Js.Num 10;
     MaintenanceStats.downtime := "15 hours";
     MaintenanceStats.lastMaintenanceDate := "2024-12-01";
     MaintenanceStats.history :=
       (MaintenanceStats.history MaintenanceStats.response ++ [stale_sample])%list |}.

Definition image : File := {| name := "part.png"; content := "PNG" |}.

(** [{ "defect_detected": true }] and [{ "defect_detected": false }]. *)
Definition defect : Js.value := Js.Object [("defect_detected", Js.Boolean true)].
Definition no_defect : Js.value := Js.Object [("defect_detected", Js.Boolean false)].

(** The basic widget: a file is chosen, Upload is clicked twice (requests
    0 and 1), request 1 is answered first, request 0 last. *)
Definition two_clicks : list DefectDisplayBasic.Event :=
  [ DefectDisplayBasic.FileChange (Some image);
    DefectDisplayBasic.ClickUpload;
    DefectDisplayBasic.ClickUpload ].

Definition second_answered : list DefectDisplayBasic.Event :=
  (two_clicks ++ [ DefectDisplayBasic.Settles 1 (Responded true (Json no_defect)) ])%list.

Definition first_answered_late : list DefectDisplayBasic.Event :=
  (second_answered ++ [ DefectDisplayBasic.Settles 0 (Responded true (Json defect)) ])%list.

(** The enhanced widget with a file chosen and Upload clicked once. *)
Definition uploading : Widget DefectDisplay.State :=
  DefectDisplay.run
    [ DefectDisplay.FileChange (Some image); DefectDisplay.ClickUpload ]
    DefectDisplay.mounted.

End Scenario.

(* ================================================================== *)
(** * The rest of the maintenance panel: its two buttons, its traces *)
(* ================================================================== *)

Module MaintenancePanel.
Import MaintenanceStats.

(** ToString of a number, as a template literal applies it: the plain
    decimal numeral, which is what JavaScript prints for the integers of
    magnitude below 2^53 that the embedding covers. *)
Definition toString (n : Js.number) : string :=
  match n with
  | Js.NaN => "NaN"
  | Js.Num z =>
      if z <? 0 then "-" ++ Js.numeral (Z.abs_N z) else Js.numeral (Z.to_N z)
  end.

(** [onClick] of Save Threshold: an alert with the threshold in it. *)
Definition saveThreshold (st : State) : string :=
  "Alert threshold set to " ++ toString (alertThreshold st) ++ ".".

(** [onClick] of Update Maintenance Prediction. *)
Definition updatePrediction : string := "Maintenance prediction updated.".

(** What happens to a panel, with the call of the effect left open: the
    effect runs and its call returns or throws, the threshold input
    changes, or one of the two buttons is clicked. The second component
    of a panel is the list of alerts shown, oldest first. *)
Inductive Happening : Type :=
| Fetched (call : ApiCall)
| Typed (value : string)
| SaveClicked
| UpdateClicked.

Definition happen (p : State * list string) (h : Happening) : State * list string :=
  match h with
  | Fetched call => (fetchMaintenanceDataWith call (fst p), snd p)
  | Typed value => (onChange value (fst p), snd p)
  | SaveClicked => (fst p, (snd p ++ [saveThreshold (fst p)])%list)
  | UpdateClicked => (fst p, (snd p ++ [updatePrediction])%list)
  end.

Definition after (hs : list Happening) (p : State * list string) : State * list string :=
  fold_left happen hs p.

Definition mounted : State * list string := (initial, []).

(** The value typed last, if any was. *)
Fixpoint lastTyped (hs : list Happening) : option string :=
  match hs with
  | [] => None
  | h :: rest =>
      match lastTyped rest with
      | Some v => Some v
      | None => match h with Typed v => Some v | _ => None end
      end
  end.

(** The response returned last, if any call returned. *)
Fixpoint lastReturned (hs : list Happening) : option Response :=
  match hs with
  | [] => None
  | h :: rest =>
      match lastReturned rest with
      | Some r => Some r
      | None => match h with Fetched (Returned r) => Some r | _ => None end
      end
  end.

(** Some call of the trace threw. *)
Definition threw (hs : list Happening) : bool :=
  existsb (fun h => match h with Fetched Thrown => true | _ => false end) hs.

(** Some effect of the trace ran. *)
Definition fetchedOnce (hs : list Happening) : bool :=
  existsb (fun h => match h with Fetched _ => true | _ => false end) hs.

End MaintenancePanel.

(* ================================================================== *)
(** * What the two widgets render *)
(* ================================================================== *)

Module DefectDisplayView.
Import Gateway.

(** [{x && <p>...</p>}] for a cell that is null or a string: the element
    is rendered when the string is not empty. *)
Definition rendered (cell : option string) : option string :=
  match cell with
  | Some s => if String.eqb s "" then None else Some s
  | None => None
  end.

Record View : Type := {
  preview : option string;      (* src of the preview image *)
  disabled : bool;              (* of the button *)
  label : string;               (* of the button *)
  paragraph : option string     (* the result *)
}.

Definition render (st : DefectDisplay.State) : View :=
  {| preview := rendered (DefectDisplay.imagePreview st);
     disabled := DefectDisplay.isLoading st;
     label := if DefectDisplay.isLoading st then "Processing..." else "Upload";
     paragraph := rendered (DefectDisplay.result st) |}.

(** The basic widget renders the input, an Upload button that is never
    disabled, and the result. *)
Definition renderBasic (st : DefectDisplayBasic.State) : option string :=
  rendered (DefectDisplayBasic.result st).

(** A request as the widgets build it from a chosen file. *)
Definition carriesFile (e : Effect) : Prop :=
  match e with
  | Fetch rq => exists f, rq = detect (Picked f)
  | _ => True
  end.

End DefectDisplayView.

(* ================================================================== *)
(** * The scripts of the landing page: dark mode and feedback *)
(* ================================================================== *)

Module HomePage.

(** localStorage: keys with their values. *)
Definition Storage : Type := list (string * string).

Fixpoint getItem (k : string) (s : Storage) : option string :=
  match s with
  | [] => None
  | (k', v) :: rest => if String.eqb k k' then Some v else getItem k rest
  end.

Definition setItem (k v : string) (s : Storage) : Storage :=
  (k, v) :: filter (fun p => negb (String.eqb k (fst p))) s.

(** classList: the tokens of the class attribute, in order. *)
Definition contains (t : string) (cl : list string) : bool :=
  existsb (String.eqb t) cl.

Definition add (t : string) (cl : list string) : list string :=
  if contains t cl then cl else (cl ++ [t])%list.

Definition toggle (t : string) (cl : list string) : list string :=
  if contains t cl
  then filter (fun x => negb (String.eqb t x)) cl
  else (cl ++ [t])%list.

Inductive Effect : Type :=
| Alert (message : string)
| ConsoleLog (label text : string).

(** The parts of the document the scripts touch, the storage of the
    origin, and what was alerted or logged, oldest first. *)
Record Browser : Type := {
  bodyClasses : list string;
  darkModeChecked : bool;      (* the check box #dark-mode *)
  feedbackText : string;       (* the textarea #feedback-text *)
  localStorage : Storage;
  seen : list Effect
}.

(** [toggleDarkMode]. *)
Definition toggleDarkMode (b : Browser) : Browser :=
  let classes := toggle "dark-mode" (bodyClasses b) in
  {| bodyClasses := classes;
     darkModeChecked := darkModeChecked b;
     feedbackText := feedbackText b;
     localStorage :=
       setItem "darkMode"
         (if contains "dark-mode" classes then "enabled" else "disabled")
         (localStorage b);
     seen := seen b |}.

(** The document as the markup gives it (the body has no class, the box
    is not checked, the textarea is empty), then the statement that runs
    when the page loads. *)
Definition load (s : Storage) (sofar : list Effect) : Browser :=
  match getItem "darkMode" s with
  | Some v =>
      if String.eqb v "enabled"
      then {| bodyClasses := add "dark-mode" [];
              darkModeChecked := true;
              feedbackText := "";
              localStorage := s;
              seen := sofar |}
      else {| bodyClasses := []; darkModeChecked := false; feedbackText := "";
              localStorage := s; seen := sofar |}
  | None =>
      {| bodyClasses := []; darkModeChecked := false; feedbackText := "";
         localStorage := s; seen := sofar |}
  end.

(** [submitFeedback]. *)
Definition submitFeedback (b : Browser) : Browser :=
  let text := feedbackText b in
  if String.eqb (Js.trim text) ""
  then
    {| bodyClasses := bodyClasses b;
       darkModeChecked := darkModeChecked b;
       feedbackText := text;
       localStorage := localStorage b;
       seen := (seen b ++ [Alert "Please enter your feedback before submitting."])%list |}
  else
    {| bodyClasses := bodyClasses b;
       darkModeChecked := darkModeChecked b;
       feedbackText := "";
       localStorage := localStorage b;
       seen := (seen b ++ [ConsoleLog "Feedback submitted:" text;
                           Alert "Thank you for your feedback!"])%list |}.

(** The user clicks the check box (the box flips, then [onchange] runs),
    types into the textarea, clicks Submit Feedback, or reloads. *)
Inductive Event : Type :=
| BoxClicked
| FeedbackTyped (text : string)
| SubmitClicked
| Reloaded.

Definition step (b : Browser) (e : Event) : Browser :=
  match e with
  | BoxClicked =>
      toggleDarkMode
        {| bodyClasses := bodyClasses b;
           darkModeChecked := negb (darkModeChecked b);
           feedbackText := feedbackText b;
           localStorage := localStorage b;
           seen := seen b |}
  | FeedbackTyped text =>
      {| bodyClasses := bodyClasses b;
         darkModeChecked := darkModeChecked b;
         feedbackText := text;
         localStorage := localStorage b;
         seen := seen b |}
  | SubmitClicked => submitFeedback b
  | Reloaded => load (localStorage b) (seen b)
  end.

Definition run (es : list Event) (b : Browser) : Browser := fold_left step es b.

Definition dark (b : Browser) : bool := contains "dark-mode" (bodyClasses b).

(** The stored preference reads "enabled". *)
Definition enabled (s : Storage) : bool :=
  match getItem "darkMode" s with
  | Some v => String.eqb v "enabled"
  | None => false
  end.

(** Characters of a text: the white space [Js.trim] removes, and the
    printable ASCII characters other than the space. *)
Fixpoint blank (s : string) : bool :=
  match s with
  | EmptyString => true
  | String c rest => Js.is_space c && blank rest
  end.

Definition is_visible (c : ascii) : bool :=
  let n := nat_of_ascii c in ((33 <=? n) && (n <=? 126))%nat.

Fixpoint legible (s : string) : bool :=
  match s with
  | EmptyString => false
  | String c rest => is_visible c || legible rest
  end.

End HomePage.

(* ================================================================== *)
(** * Facts about the JavaScript fragment *)
(* ================================================================== *)

Module JsFacts.
Import Js.

Lemma digit_not_space c : is_digit c = true -> is_space c = false.
Proof.
  unfold is_digit, is_space.
  intros H. apply andb_true_iff in H as [H1 H2].
  apply Nat.leb_le in H1. apply Nat.leb_le in H2.
  apply orb_false_iff. split.
  - apply andb_false_iff. right. apply Nat.leb_gt. lia.
  - apply Nat.eqb_neq. lia.
Qed.

Lemma string_of_uint_digits d : only_digits (NilEmpty.string_of_uint d) = true.
Proof. induction d; simpl; auto. Qed.

Lemma trim_start_digits s : only_digits s = true -> trim_start s = s.
Proof.
  destruct s as [|c rest]; simpl; [reflexivity|].
  intros H. apply andb_true_iff in H as [Hc _].
  now rewrite (digit_not_space c Hc).
Qed.

Lemma trim_end_digits s : only_digits s = true -> trim_end s = s.
Proof.
  induction s as [|c rest IH]; simpl; [reflexivity|].
  intros H. apply andb_true_iff in H as [Hc Hr].
  rewrite (IH Hr). destruct rest; [|reflexivity].
  now rewrite (digit_not_space c Hc).
Qed.

Lemma Number_digits c rest :
  only_digits (String c rest) = true ->
  Number (String c rest) = digits (String c rest).
Proof.
  intros H. unfold Number, trim.
  rewrite (trim_start_digits _ H), (trim_end_digits _ H).
  simpl in H. apply andb_true_iff in H as [Hc _].
  destruct c as [[] [] [] [] [] [] [] []]; try discriminate Hc; reflexivity.
Qed.

Lemma to_uint_cons n : exists c rest, NilEmpty.string_of_uint (N.to_uint n) = String c rest.
Proof.
  destruct (NilEmpty.string_of_uint (N.to_uint n)) as [|c rest] eqn:E.
  - exfalso.
    assert (Hn : N.to_uint n <> Decimal.Nil).
    { destruct n; simpl; [discriminate|].
      apply DecimalPos.Unsigned.to_uint_nonnil. }
    destruct (N.to_uint n); simpl in E; try discriminate E. now apply Hn.
  - now exists c, rest.
Qed.

(** [Number] reads the decimal numeral of [n] back as [n]. *)
Lemma Number_numeral n : Number (numeral n) = Num (Z.of_N n).
Proof.
  unfold numeral.
  destruct (to_uint_cons n) as (c & rest & E).
  pose proof (string_of_uint_digits (N.to_uint n)) as Hd.
  rewrite E in Hd. rewrite E, (Number_digits c rest Hd), <- E.
  unfold digits. rewrite E, <- E, NilEmpty.usu.
  unfold Z.of_uint. f_equal. f_equal.
  apply DecimalN.Unsigned.of_to.
Qed.

End JsFacts.

(* ================================================================== *)
(** * The maintenance panel *)
(* ================================================================== *)

Module MaintenanceFacts.
Import Js MaintenanceStats.

Lemma render_stats equipmentId st d :
  loading st = false -> error st = None -> maintenanceData st = Some d ->
  render equipmentId st = StatsView (statistics equipmentId d st).
Proof.
  intros Hl He Hd. unfold render. now rewrite Hl, He, Hd.
Qed.

Lemma gt_Num r t : gt (Num r) (Num t) = (t <? r).
Proof. reflexivity. Qed.

(** C1. In every state in which the panel shows the statistics, the alert
    paragraph is rendered exactly when the risk score is strictly greater
    than the stored threshold: a score equal to the threshold renders no
    alert, a score of threshold + 1 renders it. *)
Theorem alert_iff_risk_above_threshold :
  forall (equipmentId : string) (st : State) (d : Response) (r t : Z),
    loading st = false ->
    error st = None ->
    maintenanceData st = Some d ->
    riskScore d = Num r ->
    alertThreshold st = Num t ->
    (alertShown (render equipmentId st) = true <-> t < r)
    /\ (r = t -> alertShown (render equipmentId st) = false)
    /\ (r = t + 1 -> alertShown (render equipmentId st) = true).
Proof.
  intros equipmentId st d r t Hl He Hd Hr Ht.
  rewrite (render_stats equipmentId st d Hl He Hd).
  simpl. rewrite Hr, Ht, gt_Num.
  repeat split.
  - apply Z.ltb_lt.
  - apply Z.ltb_lt.
  - intros ->. apply Z.ltb_irrefl.
  - intros ->. apply Z.ltb_lt. lia.
Qed.

Lemma alert_iff_risk_above_threshold_witness :
  (alertShown (render "E1" Scenario.fetched_panel) = true <-> 70 < 80)
  /\ (80 = 70 -> alertShown (render "E1" Scenario.fetched_panel) = false)
  /\ (80 = 70 + 1 -> alertShown (render "E1" Scenario.fetched_panel) = true).
Proof.
  exact (alert_iff_risk_above_threshold "E1" Scenario.fetched_panel response 80 70
           eq_refl eq_refl eq_refl eq_refl eq_refl).
Defined.

(** The boundary of C1 on the panel itself: with the simulated score 80,
    threshold 80 renders no alert and threshold 79 renders it. *)
Example boundary_80 :
  alertShown (render "E1" (onChange "80" Scenario.fetched_panel)) = false
  /\ alertShown (render "E1" (onChange "79" Scenario.fetched_panel)) = true.
Proof. split; reflexivity. Qed.

(** C10. Clearing the threshold input hands the handler the empty
    string; [Number] turns it into 0, 0 becomes the stored threshold, and
    the alert paragraph is rendered for every positive risk score. *)
Theorem cleared_threshold_is_zero :
  forall (equipmentId : string) (st : State) (d : Response) (r : Z),
    loading st = false ->
    error st = None ->
    maintenanceData st = Some d ->
    riskScore d = Num r ->
    0 < r ->
    Js.Number "" = Num 0
    /\ alertThreshold (onChange "" st) = Num 0
    /\ alertShown (render equipmentId (onChange "" st)) = true.
Proof.
  intros equipmentId st d r Hl He Hd Hr Hpos.
  split; [reflexivity|]. split; [reflexivity|].
  rewrite (render_stats equipmentId (onChange "" st) d Hl He Hd).
  simpl. rewrite Hr. change (Js.Number "") with (Num 0).
  rewrite gt_Num. now apply Z.ltb_lt.
Qed.

Lemma cleared_threshold_is_zero_witness :
  Js.Number "" = Num 0
  /\ alertThreshold (onChange "" Scenario.fetched_panel) = Num 0
  /\ alertShown (render "E1" (onChange "" Scenario.fetched_panel)) = true.
Proof.
  apply (cleared_threshold_is_zero "E1" Scenario.fetched_panel response 80);
    try reflexivity.
Defined.

(** C4, as the code has it. For every integer from 0 to 100 typed into the
    threshold input, the handler stores that integer as the new threshold
    and leaves the other three cells as they were. *)
Theorem threshold_in_range_is_stored :
  forall (st : State) (v : Z),
    0 <= v <= 100 ->
    let st' := onChange (numeral (Z.to_N v)) st in
    alertThreshold st' = Num v
    /\ maintenanceData st' = maintenanceData st
    /\ loading st' = loading st
    /\ error st' = error st.
Proof.
  intros st v Hv st'. subst st'. unfold onChange.
  rewrite JsFacts.Number_numeral, Z2N.id by lia.
  repeat split.
Qed.

Lemma threshold_in_range_is_stored_witness :
  0 <= 55 <= 100
  /\ alertThreshold (onChange "55" Scenario.fetched_panel) = Num 55.
Proof.
  split; [lia|].
  apply (threshold_in_range_is_stored Scenario.fetched_panel 55). lia.
Defined.

(** C4, counterexample. 150 is outside [0,100]; typed into the input of a
    panel whose threshold is 70, it is stored: nothing fails and 70 is
    gone. The same with -1. *)
Lemma threshold_150_replaces_70 :
  alertThreshold Scenario.fetched_panel = Num 70
  /\ (150 <=? 100) = false
  /\ alertThreshold (onChange "150" Scenario.fetched_panel) = Num 150
  /\ (0 <=? -1) = false
  /\ alertThreshold (onChange "-1" Scenario.fetched_panel) = Num (-1).
Proof. repeat split. Qed.

(** ** Runs of the effect *)






(** On the panel itself: after the effect has run the score shown is 80,
    the score of the sample dated 2025-01-01. *)
Example risk_shown_after_two_runs :
  currentRisk "E1" (run [EffectRuns; ThresholdInput "90"; EffectRuns] initial)
  = Some (Num 80)
  /\ last (history response) {| date := ""; sampleRiskScore := NaN |}
     = {| date := "2025-01-01"; sampleRiskScore := Num 80 |}.
Proof. split; reflexivity. Qed.

End MaintenanceFacts.

(* ================================================================== *)
(** * The defect-detection widgets *)
(* ================================================================== *)

Module WidgetFacts.
Import Gateway.

Section Mounted.

Context {S : Type}.
Implicit Types (w : Widget S) (r : S * list Effect).

Lemma perform_quiet w r :
  fetched (snd r) = [] ->
  inflight (perform w r) = inflight w /\ issued (perform w r) = issued w.
Proof.
  intros H. unfold perform. simpl. rewrite H. simpl.
  now rewrite app_nil_r, Nat.add_0_r.
Qed.

Lemma perform_ui w r : ui (perform w r) = fst r.
Proof. reflexivity. Qed.

Lemma pending_app id (l1 l2 : list (nat * Request)) :
  existsb (Nat.eqb id) (map fst l1) = true ->
  existsb (Nat.eqb id) (map fst (l1 ++ l2)) = true.
Proof.
  intros H. rewrite map_app, existsb_app, H. reflexivity.
Qed.

Lemma pending_filter id id' (l : list (nat * Request)) :
  id <> id' ->
  existsb (Nat.eqb id) (map fst l) = true ->
  existsb (Nat.eqb id)
    (map fst (filter (fun p => negb (Nat.eqb id' (fst p))) l)) = true.
Proof.
  intros Hne. induction l as [|[k rq] l IH]; simpl; [easy|].
  intros H. apply orb_true_iff in H as [H|H].
  - apply Nat.eqb_eq in H. subst k.
    assert (E : Nat.eqb id' id = false) by (apply Nat.eqb_neq; congruence).
    rewrite E. simpl. now rewrite Nat.eqb_refl.
  - destruct (negb (Nat.eqb id' k)); simpl; [rewrite (IH H); apply orb_true_r|auto].
Qed.

(** A request other than the one that settles stays in flight. *)
Lemma pending_resume id id' k w :
  id <> id' -> pending id w = true -> pending id (resume id' k w) = true.
Proof.
  intros Hne H. unfold resume. destruct (pending id' w); [|exact H].
  unfold pending, perform. simpl. apply pending_app.
  now apply pending_filter.
Qed.

Lemma resume_ui id k w :
  pending id w = true -> ui (resume id k w) = fst (k (ui w)).
Proof. intros H. unfold resume. now rewrite H. Qed.

End Mounted.

End WidgetFacts.

Module DefectDisplayFacts.
Import Gateway DefectDisplay WidgetFacts.

Lemma settled_quiet o st : fetched (snd (handleSubmit_settled o st)) = [].
Proof. unfold handleSubmit_settled. now destruct (attempt o). Qed.

Lemma settled_state o st :
  fst (handleSubmit_settled o st) =
  setIsLoading false (setResult (Some (shown o)) st).
Proof. unfold handleSubmit_settled, shown. now destruct (attempt o). Qed.

Lemma mounted_consistent : consistent mounted.
Proof. reflexivity. Qed.

Lemma step_consistent w e : consistent w -> consistent (step w e).
Proof.
  unfold consistent. intros H. destruct e as [sel|r| |id o]; cbn [step].
  - destruct (perform_quiet w (handleFileChange sel (ui w))) as [Hi _];
      [now destruct sel|].
    rewrite Hi, perform_ui. now destruct sel.
  - destruct (perform_quiet w (onloadend r (ui w))) as [Hi _]; [reflexivity|].
    now rewrite Hi, perform_ui.
  - destruct (isLoading (ui w)) eqn:El; [now rewrite El|].
    unfold handleSubmit. destruct (falsy (file (ui w))).
    + unfold perform. simpl. now rewrite El, app_nil_r.
    + unfold perform. simpl. rewrite H. simpl. eauto.
  - unfold resume. destruct (pending id w) eqn:Ep; [|exact H].
    rewrite perform_ui, settled_state.
    destruct (perform_quiet (without id w) (handleSubmit_settled o (ui w))
                (settled_quiet o (ui w))) as [Hi _].
    rewrite Hi. unfold pending in Ep. simpl.
    destruct (isLoading (ui w)).
    + destruct H as (id' & rq & E). rewrite E in *. simpl in *.
      rewrite orb_false_r in Ep. now rewrite Ep.
    + rewrite H in Ep. discriminate Ep.
Qed.

Lemma run_consistent es : forall w, consistent w -> consistent (run es w).
Proof.
  induction es as [|e es IH]; intros w H; [exact H|].
  apply (IH (step w e)). now apply step_consistent.
Qed.

Lemma reachable_consistent es : consistent (run es mounted).
Proof. apply run_consistent, mounted_consistent. Qed.

(** While a request is in flight a click on Upload changes nothing. *)
Lemma click_while_pending es :
  let w := run es mounted in
  inflight w <> [] -> step w ClickUpload = w.
Proof.
  intros w Hne. pose proof (reachable_consistent es) as H.
  fold w in H. unfold consistent in H. cbn [step].
  destruct (isLoading (ui w)); [reflexivity|]. now contradiction Hne.
Qed.

(** C7. In every state the widget can reach, at most one detection request
    is in flight; and while one is, a click on Upload changes nothing: no
    request is begun, the request in flight stays as it is, and neither
    the component state nor the effects performed change. *)
Theorem single_flight :
  forall (es : list Event),
    let w := run es mounted in
    (List.length (inflight w) <= 1)%nat
    /\ (inflight w <> [] -> step w ClickUpload = w).
Proof.
  intros es w. split; [|exact (click_while_pending es)].
  pose proof (reachable_consistent es) as H.
  fold w in H. unfold consistent in H.
  destruct (isLoading (ui w)).
  - destruct H as (id & rq & E). rewrite E. simpl. lia.
  - rewrite H. simpl. lia.
Qed.

Lemma single_flight_witness :
  (List.length (inflight Scenario.uploading) <= 1)%nat
  /\ inflight Scenario.uploading = [(0%nat, detect (Picked Scenario.image))]
  /\ step Scenario.uploading ClickUpload = Scenario.uploading.
Proof.
  destruct (single_flight
              [FileChange (Some Scenario.image); ClickUpload]) as [Hle Hclick].
  split; [exact Hle|]. split; [reflexivity|].
  apply Hclick. discriminate.
Defined.

(** C9. In every state the widget can reach, the loading flag is up
    exactly while a request is in flight; whatever way a request ends
    (fetch rejects, the response is not ok, the body is not JSON, or a
    verdict arrives), the rest of the handler puts the flag down; so once
    the request in flight has settled the flag is down and nothing is in
    flight. *)
Theorem loading_flag_tracks_request :
  forall (es : list Event) (id : nat) (o : Outcome),
    let w := run es mounted in
    (isLoading (ui w) = true <-> inflight w <> [])
    /\ isLoading (fst (handleSubmit_settled o (ui w))) = false
    /\ (pending id w = true ->
        isLoading (ui (step w (Settles id o))) = false
        /\ inflight (step w (Settles id o)) = []).
Proof.
  intros es id o w. pose proof (reachable_consistent es) as H.
  fold w in H.
  pose proof (step_consistent w (Settles id o) H) as H'.
  split; [|split].
  - unfold consistent in H. destruct (isLoading (ui w)).
    + destruct H as (i & rq & E). rewrite E. split; [discriminate|reflexivity].
    + rewrite H. split; [discriminate|]. intros C. now contradiction C.
  - now rewrite settled_state.
  - intros Hp.
    assert (E : isLoading (ui (step w (Settles id o))) = false).
    { simpl. rewrite (resume_ui id _ w Hp). now rewrite settled_state. }
    split; [exact E|].
    unfold consistent in H'. now rewrite E in H'.
Qed.

Lemma loading_flag_tracks_request_witness :
  isLoading (ui Scenario.uploading) = true
  /\ pending 0 Scenario.uploading = true
  /\ isLoading (ui (step Scenario.uploading (Settles 0 (Responded false NotJson)))) = false
  /\ inflight (step Scenario.uploading (Settles 0 (Responded false NotJson))) = [].
Proof.
  destruct (loading_flag_tracks_request
              [FileChange (Some Scenario.image); ClickUpload] 0
              (Responded false NotJson)) as (_ & _ & Hs).
  split; [reflexivity|]. split; [reflexivity|].
  apply Hs. reflexivity.
Defined.

(** ** Failures *)

(** C8, as the code has it. Every way a detection request can fail (fetch
    rejects, the response is not ok, the body is not JSON, the JSON is
    null) ends in the same visible state, whatever was thrown: the
    result is the fixed text "Error detecting defects. Please try again.",
    the loading flag is down and the other cells are as they were; what
    was thrown goes to [console.error] only. In the
    maintenance panel a call that throws ends in the error view with the
    fixed text "Failed to fetch maintenance data". *)
Theorem failure_is_shown_as_fixed_text :
  (attempt Rejected = inl FetchFailed
   /\ (forall b, attempt (Responded false b) = inl (ErrorOf "Failed to detect defects."))
   /\ attempt (Responded true NotJson) = inl JsonSyntaxError
   /\ attempt (Responded true (Json Js.Null)) = inl TypeError)
  /\ (forall (es : list Event) (id : nat) (o : Outcome) (e : Thrown),
        let w := run es mounted in
        pending id w = true ->
        attempt o = inl e ->
        ui (step w (Settles id o))
          = setIsLoading false
              (setResult (Some "Error detecting defects. Please try again.") (ui w))
        /\ log (step w (Settles id o)) = (log w ++ [ConsoleError e])%list)
  /\ (forall (equipmentId : string) (st : MaintenanceStats.State),
        MaintenanceStats.render equipmentId
          (MaintenanceStats.fetchMaintenanceDataWith MaintenanceStats.Thrown st)
        = MaintenanceStats.ErrorView "Failed to fetch maintenance data").
Proof.
  split; [repeat split|]. split.
  - intros es id o e w Hp Ha. cbn [step]. unfold resume. rewrite Hp.
    unfold handleSubmit_settled. rewrite Ha. now repeat split.
  - reflexivity.
Qed.

Lemma failure_is_shown_as_fixed_text_witness :
  pending 0 Scenario.uploading = true
  /\ attempt Rejected = inl FetchFailed
  /\ ui (step Scenario.uploading (Settles 0 Rejected))
       = setIsLoading false
           (setResult (Some "Error detecting defects. Please try again.")
              (ui Scenario.uploading))
  /\ log (step Scenario.uploading (Settles 0 Rejected))
       = (log Scenario.uploading ++ [ConsoleError FetchFailed])%list.
Proof.
  split; [reflexivity|]. split; [reflexivity|].
  exact (proj1 (proj2 failure_is_shown_as_fixed_text)
           [FileChange (Some Scenario.image); ClickUpload] 0%nat Rejected FetchFailed
           eq_refl eq_refl).
Defined.

(** C8, counterexample. A request that dies in the network and one that
    the service answers with a failure status throw different things, and
    leave the widget in one and the same state: the state does not tell
    which kind of error occurred. *)
Lemma failed_state_hides_the_error_kind :
  attempt Rejected = inl FetchFailed
  /\ attempt (Responded false NotJson) = inl (ErrorOf "Failed to detect defects.")
  /\ FetchFailed <> ErrorOf "Failed to detect defects."
  /\ ui (step Scenario.uploading (Settles 0 Rejected))
     = ui (step Scenario.uploading (Settles 0 (Responded false NotJson)))
  /\ result (ui (step Scenario.uploading (Settles 0 Rejected)))
     = Some "Error detecting defects. Please try again.".
Proof. repeat split. discriminate. Qed.

(** ** The guard on the file *)

Lemma guard_before_fetch st :
  falsy (file st) = true ->
  handleSubmit st = (st, [Alert "Please select an image first."]).
Proof. intros H. unfold handleSubmit. now rewrite H. Qed.

(** With no file selected a click on Upload of this widget alerts and
    begins no request, in every state it can reach. *)
Lemma no_file_no_request es :
  let w := run es mounted in
  falsy (file (ui w)) = true ->
  isLoading (ui w) = false ->
  inflight (step w ClickUpload) = inflight w
  /\ ui (step w ClickUpload) = ui w
  /\ log (step w ClickUpload) = (log w ++ [Alert "Please select an image first."])%list.
Proof.
  intros w Hf Hl. cbn [step]. rewrite Hl, (guard_before_fetch _ Hf).
  unfold perform. simpl. now rewrite app_nil_r.
Qed.

(** C5. With no file selected, a click on Upload of the basic widget
    (src/frontend/src/components/DefectDisplay.js) posts a form whose
    [file] entry is the string "null" to the detect endpoint, while the
    same click on the other widget alerts and posts nothing. *)
Theorem basic_uploads_without_a_file :
  let basic := DefectDisplayBasic.run [DefectDisplayBasic.ClickUpload]
                 DefectDisplayBasic.mounted in
  let guarded := run [ClickUpload] mounted in
  inflight basic
    = [(0%nat, {| url := "/defects/detect"; method := "POST";
                  body := [("file", TextEntry "null")] |})]
  /\ log basic = [Fetch (detect FileNull)]
  /\ inflight guarded = []
  /\ log guarded = [Alert "Please select an image first."]
  /\ ui guarded = initial.
Proof. repeat split. Qed.

End DefectDisplayFacts.

Module DefectDisplayBasicFacts.
Import Gateway DefectDisplayBasic WidgetFacts.

(** In the basic widget a second request can be begun while the first is
    in flight, and a verdict for the first that arrives after the second
    has settled is the result the widget ends with. *)
Lemma basic_last_response_wins :
  forall (w : Widget State) (idA idB : nat) (oB : Outcome)
         (okA : bool) (dataA : Js.value) (textA : string),
    idA <> idB ->
    pending idA w = true ->
    verdict dataA = inr textA ->
    result (ui (step (step w (Settles idB oB))
                     (Settles idA (Responded okA (Json dataA)))))
    = Some textA.
Proof.
  intros w idA idB oB okA dataA textA Hne HA Hv.
  cbn [step].
  rewrite (resume_ui idA _ _ (pending_resume idA idB _ w Hne HA)).
  simpl. now rewrite Hv.
Qed.

(** C2. The basic widget (src/frontend/src/components/DefectDisplay.js)
    breaks the claim: it has neither the gate of the other widget nor any
    tag on its requests. A file is chosen and Upload is clicked twice:
    request 0 (A) is in flight when request 1 (B) is begun. B is answered
    "no defect" and the widget shows it; then A's answer "defect" arrives
    and the widget shows that: the final state is the one set by A, not
    the one set by B. *)
Lemma late_result_overwrites_newer :
  pending 0 (run Scenario.two_clicks mounted) = true
  /\ inflight (run Scenario.two_clicks mounted)
     = [(0%nat, detect (Picked Scenario.image)); (1%nat, detect (Picked Scenario.image))]
  /\ result (ui (run Scenario.second_answered mounted)) = Some "No Defect"
  /\ inflight (run Scenario.second_answered mounted)
     = [(0%nat, detect (Picked Scenario.image))]
  /\ result (ui (run Scenario.first_answered_late mounted)) = Some "Defect Detected"
  /\ ui (run Scenario.first_answered_late mounted)
     <> ui (run Scenario.second_answered mounted).
Proof. repeat split. discriminate. Qed.

(** A request that the network drops leaves the basic widget as it was:
    the rejection is caught by nobody. *)
Example basic_rejection_is_uncaught :
  let w := run Scenario.two_clicks mounted in
  ui (step w (Settles 0 Rejected)) = ui w
  /\ log (step w (Settles 0 Rejected)) = (log w ++ [Uncaught FetchFailed])%list.
Proof. split; reflexivity. Qed.

(** A failure status with a JSON body is read by the basic widget as a
    verdict. *)
Example basic_reads_failure_status_as_verdict :
  let w := run Scenario.two_clicks mounted in
  result (ui (step w (Settles 0 (Responded false
            (Json (Js.Object [("error", Js.Str "internal")]))))))
  = Some "No Defect".
Proof. reflexivity. Qed.

End DefectDisplayBasicFacts.

(* ================================================================== *)
(** * More on the maintenance panel *)
(* ================================================================== *)

Module MaintenancePanelFacts.
Import Js MaintenanceStats MaintenancePanel.


(** The four cells after a trace, from any panel. *)
Lemma cells_after hs : forall p,
  let st := fst (after hs p) in
  loading st = (if fetchedOnce hs then false else loading (fst p))
  /\ error st = (if threw hs then Some "Failed to fetch maintenance data" else error (fst p))
  /\ maintenanceData st
     = match lastReturned hs with Some r => Some r | None => maintenanceData (fst p) end
  /\ alertThreshold st
     = match lastTyped hs with Some v => Number v | None => alertThreshold (fst p) end.
Proof.
  induction hs as [|h hs IH]; intros p; [now repeat split|].
  specialize (IH (happen p h)). cbv zeta in *.
  change (after (h :: hs) p) with (after hs (happen p h)).
  destruct IH as (Hl & He & Hd & Ht). rewrite Hl, He, Hd, Ht.
  cbn [fetchedOnce threw lastReturned lastTyped existsb].
  fold (fetchedOnce hs). fold (threw hs).
  destruct h as [[r|]|v| |]; cbn [happen fst snd orb];
    destruct (fetchedOnce hs), (threw hs), (lastReturned hs), (lastTyped hs);
    repeat split.
Qed.

Lemma returned_or_threw hs :
  fetchedOnce hs = true -> threw hs = false -> exists r, lastReturned hs = Some r.
Proof.
  induction hs as [|h hs IH]; [discriminate|].
  cbn [fetchedOnce threw lastReturned existsb].
  fold (fetchedOnce hs). fold (threw hs).
  intros Hf Ht. apply orb_false_iff in Ht as [Hh Ht].
  destruct (fetchedOnce hs) eqn:E.
  - destruct (IH eq_refl Ht) as [r Hr]. rewrite Hr. eauto.
  - destruct (lastReturned hs); [eauto|].
    destruct h as [[r|]|v| |]; try discriminate; eauto.
Qed.

(** The view after a trace from the mounted panel. *)
Lemma view_after equipmentId hs :
  let st := fst (after hs mounted) in
  render equipmentId st =
    if negb (fetchedOnce hs) then LoadingView
    else if threw hs then ErrorView "Failed to fetch maintenance data"
    else match lastReturned hs with
         | Some r => StatsView (statistics equipmentId r st)
         | None => RenderThrows
         end.
Proof.
  intros st. destruct (cells_after hs mounted) as (Hl & He & Hd & _).
  fold st in Hl, He, Hd. unfold render. rewrite Hl, He, Hd.
  destruct (fetchedOnce hs); [|reflexivity].
  destruct (threw hs); [reflexivity|].
  now destruct (lastReturned hs).
Qed.

(** X1. Whatever the calls of the effect do and whatever is typed or
    clicked, the panel never reads a property of the null
    [maintenanceData]: it renders the loading text until the first call
    ends, the error text once a call has thrown, and otherwise the
    statistics of the response returned last. *)
Theorem render_never_throws :
  forall (equipmentId : string) (hs : list Happening),
    let st := fst (after hs mounted) in
    render equipmentId st <> RenderThrows
    /\ (fetchedOnce hs = false -> render equipmentId st = LoadingView)
    /\ (fetchedOnce hs = true -> threw hs = false ->
        exists r, lastReturned hs = Some r
                  /\ render equipmentId st = StatsView (statistics equipmentId r st)).
Proof.
  intros equipmentId hs st. pose proof (view_after equipmentId hs) as V.
  fold st in V. rewrite V.
  destruct (fetchedOnce hs) eqn:Ef; cbn [negb].
  - destruct (threw hs) eqn:Et.
    + repeat split; try discriminate.
    + destruct (returned_or_threw hs Ef Et) as [r Hr]. rewrite Hr.
      repeat split; try discriminate. intros _ _. now exists r.
  - repeat split; try discriminate.
Qed.

Lemma render_never_throws_witness :
  render "E1" (fst (after [Fetched (Returned response); Typed "90"; Fetched (Returned Scenario.stale_response)] mounted))
  = StatsView (statistics "E1" Scenario.stale_response
                 (fst (after [Fetched (Returned response); Typed "90";
                              Fetched (Returned Scenario.stale_response)] mounted))).
Proof.
  destruct (render_never_throws "E1"
              [Fetched (Returned response); Typed "90";
               Fetched (Returned Scenario.stale_response)]) as (_ & _ & H).
  destruct (H eq_refl eq_refl) as (r & Hr & Hv).
  injection Hr as <-. exact Hv.
Defined.

(** X3. No run of the effect and no button changes the threshold: after
    any trace it is 70 if nothing was typed, 0 if the value typed last is
    the empty string, and the integer typed last if that is the numeral of
    an integer below 2^53. *)
Theorem threshold_is_last_typed :
  forall (hs : list Happening),
    (lastTyped hs = None -> alertThreshold (fst (after hs mounted)) = Num 70)
    /\ (lastTyped hs = Some "" -> alertThreshold (fst (after hs mounted)) = Num 0)
    /\ (forall n : N,
          (n < 2 ^ 53)%N ->
          lastTyped hs = Some (numeral n) ->
          alertThreshold (fst (after hs mounted)) = Num (Z.of_N n)).
Proof.
  intros hs. destruct (cells_after hs mounted) as (_ & _ & _ & Ht).
  cbv zeta in Ht. rewrite Ht. repeat split.
  - now intros ->.
  - now intros ->.
  - intros n _ ->. apply JsFacts.Number_numeral.
Qed.

Lemma threshold_is_last_typed_witness :
  alertThreshold
    (fst (after [Fetched (Returned response); Typed "1.5"; Typed "85";
                 SaveClicked; Fetched (Returned response)] mounted))
  = Num 85.
Proof.
  apply (proj2 (proj2 (threshold_is_last_typed
                         [Fetched (Returned response); Typed "1.5"; Typed "85";
                          SaveClicked; Fetched (Returned response)])) 85%N);
    reflexivity.
Defined.

(** ** The two buttons *)

Lemma after_fst hs : forall p q,
  fst p = fst q -> fst (after hs p) = fst (after hs q).
Proof.
  induction hs as [|h hs IH]; intros p q E; [exact E|].
  change (after (h :: hs) p) with (after hs (happen p h)).
  change (after (h :: hs) q) with (after hs (happen q h)).
  apply IH. destruct h; cbn [happen fst]; now rewrite E.
Qed.

Lemma toString_Number_numeral n : toString (Number (numeral n)) = numeral n.
Proof.
  rewrite JsFacts.Number_numeral. unfold toString.
  assert (E : (Z.of_N n <? 0) = false) by (apply Z.ltb_ge; lia).
  now rewrite E, N2Z.id.
Qed.

(** X4. The two buttons only alert: the state after a trace is the state
    after the same trace with the clicks on Save Threshold and Update
    Maintenance Prediction left out. What Save Threshold reports is the
    threshold already in force: after the numeral of an integer below
    2^53 is typed it alerts that numeral. *)
Theorem buttons_only_alert :
  (forall (hs : list Happening) (p : State * list string),
      fst (after hs p)
      = fst (after (filter (fun h => match h with
                                     | SaveClicked | UpdateClicked => false
                                     | _ => true
                                     end) hs) p))
  /\ (forall (p : State * list string) (n : N),
        (n < 2 ^ 53)%N ->
        happen (happen p (Typed (numeral n))) SaveClicked
        = (onChange (numeral n) (fst p),
           (snd p ++ [("Alert threshold set to " ++ numeral n ++ ".")%string])%list)).
Proof.
  split.
  - induction hs as [|h hs IH]; intros p; [reflexivity|].
    change (after (h :: hs) p) with (after hs (happen p h)).
    destruct h as [c|v| |]; cbn [filter].
    + change (after (Fetched c :: ?l) p) with (after l (happen p (Fetched c))).
      apply IH.
    + change (after (Typed v :: ?l) p) with (after l (happen p (Typed v))).
      apply IH.
    + rewrite IH. now apply after_fst.
    + rewrite IH. now apply after_fst.
  - intros p n _. cbn [happen fst snd]. unfold saveThreshold, onChange.
    cbn [alertThreshold setAlertThreshold].
    now rewrite toString_Number_numeral.
Qed.

Lemma buttons_only_alert_witness :
  happen (happen mounted (Typed "85")) SaveClicked
  = (onChange "85" initial, ["Alert threshold set to 85."]).
Proof.
  apply (proj2 buttons_only_alert mounted 85%N). reflexivity.
Defined.

End MaintenancePanelFacts.

(* ================================================================== *)
(** * More on the defect-detection widgets *)
(* ================================================================== *)

Module DefectDisplayMore.
Import Gateway DefectDisplay DefectDisplayView WidgetFacts.

Lemma verdict_texts data text :
  verdict data = inr text -> text = "Defect Detected" \/ text = "No Defect".
Proof.
  unfold verdict. destruct (Js.get data "defect_detected") as [v|]; [|discriminate].
  intros [= <-]. destruct (Js.truthy v); auto.
Qed.

Lemma shown_texts o :
  shown o = "Defect Detected" \/ shown o = "No Defect" \/ shown o = "Error detecting defects. Please try again.".
Proof.
  unfold shown. destruct (attempt o) as [e|text] eqn:E; [auto|].
  destruct o as [|[] [|data]]; try discriminate E.
  cbn [attempt] in E. destruct (verdict_texts data text E); auto.
Qed.

Lemma log_perform {S : Type} (w : Widget S) r :
  log (perform w r) = (log w ++ snd r)%list.
Proof. reflexivity. Qed.

Lemma picked_of_truthy c : falsy c = false -> exists f, c = Picked f.
Proof. destruct c; try discriminate. eauto. Qed.

Lemma step_carries w e :
  Forall carriesFile (log w) -> Forall carriesFile (log (step w e)).
Proof.
  intros H. destruct e as [sel|r| |id o]; cbn [step].
  - rewrite log_perform. apply Forall_app. split; [exact H|].
    destruct sel; repeat constructor.
  - rewrite log_perform. apply Forall_app. split; [exact H|constructor].
  - destruct (isLoading (ui w)); [exact H|].
    rewrite log_perform. apply Forall_app. split; [exact H|].
    unfold handleSubmit. destruct (falsy (file (ui w))) eqn:Ef.
    + repeat constructor.
    + destruct (picked_of_truthy _ Ef) as [f Hf]. rewrite Hf.
      repeat constructor. now exists f.
  - unfold resume. destruct (pending id w); [|exact H].
    rewrite log_perform. apply Forall_app. split; [exact H|].
    unfold handleSubmit_settled. destruct (attempt o); repeat constructor.
Qed.

(** X5. Every request the guarded widget ever issues is a POST to
    /defects/detect whose form holds a file the user chose: over every
    trace no request carries the string "null" or "undefined" in the
    place of the file. *)
Theorem requests_carry_a_file :
  forall (es : list Event),
    Forall carriesFile (log (run es mounted)).
Proof.
  intros es.
  assert (L : forall w, Forall carriesFile (log w) ->
                        Forall carriesFile (log (run es w))).
  { induction es as [|e es IH]; intros w H; [exact H|].
    apply (IH (step w e)). now apply step_carries. }
  apply L. constructor.
Qed.

(** ** What is on the screen *)

Lemma step_result w e :
  result (ui (step w e)) = result (ui w)
  \/ exists o, result (ui (step w e)) = Some (shown o).
Proof.
  destruct e as [sel|r| |id o]; cbn [step].
  - left. now destruct sel.
  - now left.
  - left. destruct (isLoading (ui w)); [reflexivity|].
    unfold handleSubmit. now destruct (falsy (file (ui w))).
  - unfold resume. destruct (pending id w); [|now left].
    right. exists o. now rewrite perform_ui, DefectDisplayFacts.settled_state.
Qed.

Lemma result_texts es :
  In (result (ui (run es mounted)))
     [None; Some "Defect Detected"; Some "No Defect";
      Some "Error detecting defects. Please try again."].
Proof.
  assert (L : forall w,
             In (result (ui w))
                [None; Some "Defect Detected"; Some "No Defect";
                 Some "Error detecting defects. Please try again."] ->
             In (result (ui (run es w)))
                [None; Some "Defect Detected"; Some "No Defect";
                 Some "Error detecting defects. Please try again."]).
  { induction es as [|e es IH]; intros w H; [exact H|].
    apply (IH (step w e)).
    destruct (step_result w e) as [E|[o E]]; rewrite E; [exact H|].
    destruct (shown_texts o) as [T|[T|T]]; rewrite T; simpl; auto. }
  apply L. simpl. auto.
Qed.

Lemma paragraph_is_result es :
  paragraph (render (ui (run es mounted))) = result (ui (run es mounted)).
Proof.
  unfold render. cbn [paragraph].
  destruct (result_texts es) as [E|[E|[E|[E|[]]]]]; now rewrite <- E.
Qed.

(** X6. Whatever the user does and whatever the service answers, the
    paragraph under the button of the guarded widget is absent or reads
    one of three texts: Defect Detected, No Defect, or the one error
    text. *)
Theorem paragraph_is_one_of_three :
  forall (es : list Event),
    In (paragraph (render (ui (run es mounted))))
       [None; Some "Defect Detected"; Some "No Defect";
        Some "Error detecting defects. Please try again."].
Proof.
  intros es. rewrite paragraph_is_result. apply result_texts.
Qed.

Lemma run_snoc es e w : run (es ++ [e])%list w = step (run es w) e.
Proof. unfold run. now rewrite fold_left_app. Qed.

(** X7. The result is never taken off the screen: choosing another file
    or clicking Upload leaves the paragraph as it is, so the verdict of
    the previous upload stays visible while the next request is pending,
    and a settling request replaces it by its own text. *)
Theorem result_stays_on_screen :
  forall (es : list Event) (e : Event),
    let w := run es mounted in
    match e with
    | Settles id o =>
        paragraph (render (ui (step w e)))
        = if pending id w then Some (shown o) else paragraph (render (ui w))
    | _ => paragraph (render (ui (step w e))) = paragraph (render (ui w))
    end.
Proof.
  intros es e w.
  pose proof (paragraph_is_result (es ++ [e])) as P1.
  rewrite run_snoc in P1. fold w in P1.
  pose proof (paragraph_is_result es) as P0. fold w in P0.
  destruct e as [sel|r| |id o]; rewrite P1, P0; cbn [step].
  - now destruct sel.
  - reflexivity.
  - destruct (isLoading (ui w)); [reflexivity|].
    unfold handleSubmit. now destruct (falsy (file (ui w))).
  - unfold resume. destruct (pending id w); [|reflexivity].
    now rewrite perform_ui, DefectDisplayFacts.settled_state.
Qed.

(** X15. When no request is pending, choosing a file and clicking Upload
    begins exactly one request, a POST of that very file; the loading
    flag goes up and the file is read once for the preview. *)
Theorem chosen_file_is_posted :
  forall (es : list Event) (f : File),
    let w := run es mounted in
    isLoading (ui w) = false ->
    let w' := step (step w (FileChange (Some f))) ClickUpload in
    inflight w' = [(issued w, {| url := "/defects/detect"; method := "POST";
                                 body := [("file", FileEntry f)] |})]
    /\ log w' = (log w ++ [ReadAsDataURL f; Fetch (detect (Picked f))])%list
    /\ isLoading (ui w') = true
    /\ file (ui w') = Picked f.
Proof.
  intros es f w Hl w'. subst w'.
  pose proof (DefectDisplayFacts.reachable_consistent es) as C.
  fold w in C. unfold consistent in C. rewrite Hl in C.
  assert (E1 : step w (FileChange (Some f))
               = {| ui := setFile (Picked f) (ui w); inflight := [];
                    issued := issued w;
                    log := (log w ++ [ReadAsDataURL f])%list |}).
  { cbn [step]. unfold perform. cbn. now rewrite C, Nat.add_0_r. }
  rewrite E1. cbn [step ui]. cbn [isLoading setFile]. rewrite Hl.
  unfold handleSubmit, perform. cbn. rewrite <- app_assoc.
  now repeat split.
Qed.

Lemma chosen_file_is_posted_witness :
  inflight (step (step mounted (FileChange (Some Scenario.image))) ClickUpload)
  = [(0%nat, detect (Picked Scenario.image))].
Proof.
  exact (proj1 (chosen_file_is_posted [] Scenario.image eq_refl)).
Defined.

(** ** Bodies without the member *)

Lemma get_missing members :
  Js.member "defect_detected" members = None ->
  verdict (Js.Object members) = inr "No Defect".
Proof. intros H. unfold verdict, Js.get. now rewrite H. Qed.

(** X8. An answer whose JSON object has no member [defect_detected] is
    read as No Defect by both widgets: the guarded one when the status
    is ok, the basic one whatever the status. *)
Theorem missing_member_reads_no_defect :
  forall (members : list (string * Js.value)) (id : nat),
    Js.member "defect_detected" members = None ->
    (forall (w : Widget State),
        pending id w = true ->
        ui (step w (Settles id (Responded true (Json (Js.Object members)))))
        = setIsLoading false (setResult (Some "No Defect") (ui w)))
    /\ (forall (w : Widget DefectDisplayBasic.State) (ok : bool),
          pending id w = true ->
          ui (DefectDisplayBasic.step w
                (DefectDisplayBasic.Settles id (Responded ok (Json (Js.Object members)))))
          = DefectDisplayBasic.setResult (Some "No Defect") (ui w)).
Proof.
  intros members id Hm. split.
  - intros w Hp. cbn [step]. rewrite (resume_ui id _ w Hp).
    unfold handleSubmit_settled. cbn [attempt]. now rewrite (get_missing _ Hm).
  - intros w ok Hp. cbn [DefectDisplayBasic.step]. rewrite (resume_ui id _ w Hp).
    cbn [DefectDisplayBasic.handleSubmit_settled]. now rewrite (get_missing _ Hm).
Qed.

Lemma missing_member_reads_no_defect_witness :
  result (ui (step Scenario.uploading
                (Settles 0 (Responded true
                   (Json (Js.Object [("status", Js.Str "done")]))))))
  = Some "No Defect".
Proof.
  rewrite (proj1 (missing_member_reads_no_defect
                    [("status", Js.Str "done")] 0%nat eq_refl)
             Scenario.uploading eq_refl).
  reflexivity.
Defined.

End DefectDisplayMore.

Module DefectDisplayBasicMore.
Import Gateway DefectDisplayBasic DefectDisplayView WidgetFacts.

Lemma click_adds_one (w : Widget State) :
  inflight (step w ClickUpload)
  = (inflight w ++ [(issued w, detect (file (ui w)))])%list
  /\ issued (step w ClickUpload) = Datatypes.S (issued w)
  /\ ui (step w ClickUpload) = ui w.
Proof.
  cbn [step]. unfold perform, handleSubmit. simpl.
  repeat split. apply Nat.add_1_r.
Qed.

(** X9. The basic widget has no limit on the requests in flight: each
    click on Upload begins one more, with the same form, and changes
    nothing on the screen. *)
Theorem each_click_begins_a_request :
  forall (n : nat) (w : Widget State),
    let w' := run (repeat ClickUpload n) w in
    inflight w'
    = (inflight w ++ combine (seq (issued w) n) (repeat (detect (file (ui w))) n))%list
    /\ List.length (inflight w') = (List.length (inflight w) + n)%nat
    /\ ui w' = ui w.
Proof.
  induction n as [|n IH]; intros w w'; subst w'.
  - simpl. rewrite app_nil_r, Nat.add_0_r. now repeat split.
  - change (run (repeat ClickUpload (Datatypes.S n)) w)
      with (run (repeat ClickUpload n) (step w ClickUpload)).
    destruct (IH (step w ClickUpload)) as (Hi & Hl & Hu).
    destruct (click_adds_one w) as (Ci & Cn & Cu).
    split; [|split].
    + rewrite Hi, Ci, Cn, Cu. simpl. now rewrite <- app_assoc.
    + rewrite Hl, Ci, length_app. simpl. lia.
    + now rewrite Hu.
Qed.

Lemma basic_step_result (w : Widget State) e :
  result (ui (step w e)) = result (ui w)
  \/ result (ui (step w e)) = Some "Defect Detected"
  \/ result (ui (step w e)) = Some "No Defect".
Proof.
  destruct e as [sel| |id o]; cbn [step].
  - left. now destruct sel.
  - now left.
  - unfold resume. destruct (pending id w); [|now left].
    rewrite perform_ui. destruct o as [|ok [|data]]; try now left.
    cbn [handleSubmit_settled].
    destruct (verdict data) as [e|text] eqn:E; [now left|].
    right. destruct (DefectDisplayMore.verdict_texts data text E) as [-> | ->]; auto.
Qed.

(** X10. The basic widget never tells the user that something failed:
    whatever is clicked and whatever the requests end with (a network
    failure, a failure status, a body that is not JSON), its paragraph
    is absent or reads Defect Detected or No Defect. *)
Theorem basic_never_shows_an_error :
  forall (es : list Event),
    In (renderBasic (ui (run es mounted)))
       [None; Some "Defect Detected"; Some "No Defect"].
Proof.
  intros es.
  assert (L : forall w,
             In (result (ui w)) [None; Some "Defect Detected"; Some "No Defect"] ->
             In (result (ui (run es w)))
                [None; Some "Defect Detected"; Some "No Defect"]).
  { induction es as [|e es IH]; intros w H; [exact H|].
    apply (IH (step w e)).
    destruct (basic_step_result w e) as [E|[E|E]]; rewrite E; simpl; auto. }
  unfold renderBasic.
  destruct (L mounted (or_introl eq_refl)) as [E|[E|[E|[]]]];
    rewrite <- E; simpl; auto.
Qed.

End DefectDisplayBasicMore.

(* ================================================================== *)
(** * The landing page *)
(* ================================================================== *)

Module HomePageFacts.
Import HomePage.

Lemma contains_removed t cl :
  contains t (filter (fun x => negb (String.eqb t x)) cl) = false.
Proof.
  unfold contains. induction cl as [|x cl IH]; [reflexivity|].
  simpl. destruct (String.eqb t x) eqn:E; simpl; [exact IH|].
  now rewrite E, IH.
Qed.

Lemma contains_toggle t cl : contains t (toggle t cl) = negb (contains t cl).
Proof.
  unfold toggle. destruct (contains t cl) eqn:E; simpl.
  - apply contains_removed.
  - unfold contains. rewrite existsb_app. simpl.
    rewrite String.eqb_refl. apply orb_true_r.
Qed.

Lemma getItem_setItem k v s : getItem k (setItem k v s) = Some v.
Proof. unfold setItem. simpl. now rewrite String.eqb_refl. Qed.

Lemma toggleDarkMode_dark b :
  dark (toggleDarkMode b) = negb (dark b)
  /\ enabled (localStorage (toggleDarkMode b)) = negb (dark b)
  /\ darkModeChecked (toggleDarkMode b) = darkModeChecked b.
Proof.
  unfold dark, enabled, toggleDarkMode. cbn [bodyClasses localStorage darkModeChecked].
  rewrite getItem_setItem, contains_toggle.
  now destruct (contains "dark-mode" (bodyClasses b)).
Qed.

Lemma load_dark s sofar :
  dark (load s sofar) = enabled s
  /\ darkModeChecked (load s sofar) = enabled s
  /\ localStorage (load s sofar) = s.
Proof.
  unfold load, enabled, dark.
  destruct (getItem "darkMode" s) as [v|]; [|now repeat split].
  destruct (String.eqb v "enabled"); now repeat split.
Qed.

Lemma step_dark b e :
  dark b = darkModeChecked b ->
  dark b = enabled (localStorage b) ->
  dark (step b e) = darkModeChecked (step b e)
  /\ dark (step b e) = enabled (localStorage (step b e)).
Proof.
  intros Hc He. destruct e as [|text| |]; cbn [step].
  - match goal with |- context [toggleDarkMode ?x] =>
      destruct (toggleDarkMode_dark x) as (Hd & Hs & Hk) end.
    rewrite Hd, Hs, Hk. cbn [darkModeChecked]. unfold dark in *.
    cbn [bodyClasses]. now rewrite Hc.
  - split; assumption.
  - unfold submitFeedback. destruct (String.eqb (Js.trim (feedbackText b)) "");
      split; assumption.
  - destruct (load_dark (localStorage b) (seen b)) as (Hd & Hk & Hs).
    now rewrite Hd, Hk, Hs.
Qed.

Lemma run_dark es : forall b,
  dark b = darkModeChecked b ->
  dark b = enabled (localStorage b) ->
  dark (run es b) = darkModeChecked (run es b)
  /\ dark (run es b) = enabled (localStorage (run es b)).
Proof.
  induction es as [|e es IH]; intros b Hc He; [now split|].
  destruct (step_dark b e Hc He) as [Hc' He'].
  exact (IH (step b e) Hc' He').
Qed.

Lemma loaded_in_sync s es :
  dark (run es (load s [])) = darkModeChecked (run es (load s []))
  /\ dark (run es (load s [])) = enabled (localStorage (run es (load s []))).
Proof.
  destruct (load_dark s []) as (Hd & Hk & Hs).
  apply run_dark.
  - now rewrite Hd, Hk.
  - now rewrite Hd, Hs.
Qed.

(** X11. From the moment the page has loaded, with whatever the storage
    held, the class [dark-mode] on the body, the check box and the stored
    preference agree: the body is dark exactly when the box is checked,
    and exactly when the stored value is "enabled". *)
Theorem dark_mode_in_sync :
  forall (s : Storage) (es : list Event),
    let b := run es (load s []) in
    dark b = darkModeChecked b
    /\ dark b = enabled (localStorage b).
Proof.
  intros s es b. subst b. apply loaded_in_sync.
Qed.

(** X12. The mode survives a reload: after any use of the page, the page
    that loads next is dark exactly when the one left was. Each click on
    the box flips the mode, so two clicks restore it; and with nothing
    stored the page loads light. *)
Theorem dark_mode_survives_reload :
  (forall (s : Storage) (es : list Event),
      dark (step (run es (load s [])) Reloaded) = dark (run es (load s [])))
  /\ (forall (b : Browser),
        dark (step b BoxClicked) = negb (dark b)
        /\ dark (step (step b BoxClicked) BoxClicked) = dark b)
  /\ dark (load [] []) = false.
Proof.
  split; [|split].
  - intros s es. destruct (loaded_in_sync s es) as [_ He].
    cbn [step].
    destruct (load_dark (localStorage (run es (load s [])))
                        (seen (run es (load s [])))) as (Hd & _ & _).
    now rewrite Hd, He.
  - intros b.
    assert (F : forall x, dark (step x BoxClicked) = negb (dark x)).
    { intros x. cbn [step].
      match goal with |- context [toggleDarkMode ?y] =>
        destruct (toggleDarkMode_dark y) as (Hd & _ & _) end.
      exact Hd. }
    split; [apply F|]. rewrite !F. apply negb_involutive.
  - reflexivity.
Qed.

(** ** Feedback *)

Lemma trim_start_blank s : blank s = true -> Js.trim_start s = "".
Proof.
  induction s as [|c rest IH]; [reflexivity|].
  simpl. intros H. apply andb_true_iff in H as [Hc Hr].
  rewrite Hc. now apply IH.
Qed.

Lemma trim_blank s : blank s = true -> Js.trim s = "".
Proof. intros H. unfold Js.trim. now rewrite (trim_start_blank s H). Qed.

Lemma visible_not_space c : is_visible c = true -> Js.is_space c = false.
Proof.
  unfold is_visible, Js.is_space.
  intros H. apply andb_true_iff in H as [H1 H2].
  apply Nat.leb_le in H1. apply Nat.leb_le in H2.
  apply orb_false_iff. split.
  - apply andb_false_iff. right. apply Nat.leb_gt. lia.
  - apply Nat.eqb_neq. lia.
Qed.

Lemma trim_start_legible s : legible s = true -> legible (Js.trim_start s) = true.
Proof.
  induction s as [|c rest IH]; [discriminate|].
  intros H. cbn [Js.trim_start]. destruct (Js.is_space c) eqn:Es; [|exact H].
  apply IH. cbn [legible] in H. apply orb_true_iff in H as [Hv|Hr]; [|exact Hr].
  rewrite (visible_not_space c Hv) in Es. discriminate Es.
Qed.

Lemma trim_end_legible s : legible s = true -> Js.trim_end s <> "".
Proof.
  induction s as [|c rest IH]; [discriminate|].
  intros H. cbn [Js.trim_end legible] in *.
  destruct (Js.trim_end rest) as [|k kept] eqn:E; [|discriminate].
  apply orb_true_iff in H as [Hv|Hr].
  - rewrite (visible_not_space c Hv). discriminate.
  - now contradiction (IH Hr).
Qed.

Lemma trim_legible s : legible s = true -> String.eqb (Js.trim s) "" = false.
Proof.
  intros H. apply String.eqb_neq. unfold Js.trim.
  apply trim_end_legible. now apply trim_start_legible.
Qed.

(** X13. Feedback that is empty or made of spaces, tabs and line breaks
    only is refused: the user is asked to enter feedback, nothing is
    logged, and the textarea keeps what it held. *)
Theorem blank_feedback_is_refused :
  forall (b : Browser),
    blank (feedbackText b) = true ->
    feedbackText (submitFeedback b) = feedbackText b
    /\ seen (submitFeedback b)
       = (seen b ++ [Alert "Please enter your feedback before submitting."])%list
    /\ bodyClasses (submitFeedback b) = bodyClasses b
    /\ localStorage (submitFeedback b) = localStorage b.
Proof.
  intros b H. unfold submitFeedback. rewrite (trim_blank _ H). now repeat split.
Qed.

Lemma blank_feedback_is_refused_witness :
  seen (submitFeedback (step (load [] []) (FeedbackTyped "  ")))
  = [Alert "Please enter your feedback before submitting."]
  /\ feedbackText (submitFeedback (step (load [] []) (FeedbackTyped "  "))) = "  ".
Proof.
  destruct (blank_feedback_is_refused (step (load [] []) (FeedbackTyped "  ")) eq_refl)
    as (Ht & Hs & _).
  split; [exact Hs|exact Ht].
Defined.

(** X14. Feedback with at least one printable character is accepted
    whatever surrounds it: the text is logged as typed, untrimmed, the
    user is thanked and the textarea is emptied; so a second click on
    Submit Feedback right after is refused. *)
Theorem legible_feedback_is_sent_once :
  forall (b : Browser),
    legible (feedbackText b) = true ->
    feedbackText (submitFeedback b) = ""
    /\ seen (submitFeedback b)
       = (seen b ++ [ConsoleLog "Feedback submitted:" (feedbackText b);
                     Alert "Thank you for your feedback!"])%list
    /\ seen (submitFeedback (submitFeedback b))
       = (seen (submitFeedback b)
            ++ [Alert "Please enter your feedback before submitting."])%list.
Proof.
  intros b H.
  assert (E : submitFeedback b =
              {| bodyClasses := bodyClasses b;
                 darkModeChecked := darkModeChecked b;
                 feedbackText := "";
                 localStorage := localStorage b;
                 seen := (seen b ++ [ConsoleLog "Feedback submitted:" (feedbackText b);
                                     Alert "Thank you for your feedback!"])%list |}).
  { unfold submitFeedback. now rewrite (trim_legible _ H). }
  rewrite E. now repeat split.
Qed.

Lemma legible_feedback_is_sent_once_witness :
  seen (submitFeedback (step (load [] []) (FeedbackTyped " line 3 jams ")))
  = [ConsoleLog "Feedback submitted:" " line 3 jams ";
     Alert "Thank you for your feedback!"]
  /\ feedbackText (submitFeedback (step (load [] []) (FeedbackTyped " line 3 jams "))) = "".
Proof.
  destruct (legible_feedback_is_sent_once
              (step (load [] []) (FeedbackTyped " line 3 jams ")) eq_refl)
    as (Ht & Hs & _).
  split; [exact Hs|exact Ht].
Defined.

End HomePageFacts.
